(** * appletar: skin resolution and avatar request pipeline

    A shallow embedding of [main.go] (size rationalisation, the timing
    helper, the disk cache, the skin resolver [fetchSkin] and the request
    handler built by [fetchImageProcessThen]) together with the properties
    its specification states about them.

    Conventions.
    - Go's [uint]/[uint64]/[int64] values are [Z]; wrap-around and
      saturation are written out where the Go code can reach them.
    - Go strings and byte slices are [string] (a Go string is a byte
      sequence).
    - A Go [error] is [option E]: [None] is [nil].
    - The file system, the remote collaborators and the clock are effects:
      a computation runs in a small monad that threads the disk and the
      number of clock readings taken, and collects the calls it makes. *)

From Stdlib Require Import ZArith Lia List Bool Ascii String DecimalString.
From Stdlib Require DecimalPos.
From stdpp Require Import base option strings gmap.

Local Open Scope string_scope.
Local Open Scope list_scope.
Local Open Scope Z_scope.

(* ===================================================================== *)
(** ** Constants of [main.go] *)
(* ===================================================================== *)

Definition DefaultSize : Z := 180.
Definition MaxSize : Z := 300.
Definition MinSize : Z := 8.

Definition Minutes : Z := 60.
Definition Hours : Z := 60 * Minutes.
Definition Days : Z := 24 * Hours.
Definition TimeoutActualSkin : Z := 2 * Days.
Definition TimeoutFailedFetch : Z := 15 * Minutes.

(* ===================================================================== *)
(** ** [strconv.ParseUint(s, 10, 0)] *)
(* ===================================================================== *)

Module strconv.

(** The two failures of [strconv]: [ErrSyntax] and [ErrRange]. *)
Inductive NumError : Set := ErrSyntax | ErrRange.

(** [IntSize] of a 64-bit platform: [bitSize = 0] selects it. *)
Definition IntSize : Z := 64.
Definition maxUint64 : Z := 2 ^ 64 - 1.
Definition base : Z := 10.

(** The smallest number such that [cutoff * base > maxUint64]. *)
Definition cutoff : Z := maxUint64 / base + 1.
Definition maxVal : Z := 2 ^ IntSize - 1.

Definition wrap64 (z : Z) : Z := z mod 2 ^ 64.

Definition byte_of (c : ascii) : Z := Z.of_N (N_of_ascii c).

(** [lower(c) = c | ('x' - 'X')] *)
Definition lower (c : Z) : Z := Z.lor c 32.

(** The digit value of a byte, [None] where the Go switch reaches its
    [default] case. *)
Definition digit (c : Z) : option Z :=
  if (48 <=? c) && (c <=? 57) then Some (c - 48)
  else if (97 <=? lower c) && (lower c <=? 122) then Some (lower c - 97 + 10)
  else None.

(** The loop [for _, c := range []byte(s)] with accumulator [n]. *)
Fixpoint loop (s : string) (n : Z) : Z * option NumError :=
  match s with
  | EmptyString => (n, None)
  | String c s' =>
      match digit (byte_of c) with
      | None => (0, Some ErrSyntax)
      | Some d =>
          if d >=? base then (0, Some ErrSyntax)
          else if n >=? cutoff then (maxVal, Some ErrRange)
          else
            let n10 := wrap64 (n * base) in
            let n1 := wrap64 (n10 + d) in
            if (n1 <? n10) || (n1 >? maxVal) then (maxVal, Some ErrRange)
            else loop s' n1
      end
  end.

(** [ParseUint(s, 10, 0)]: base and bit size are those of the only call
    in [main.go]. *)
Definition ParseUint (s : string) : Z * option NumError :=
  match s with
  | EmptyString => (0, Some ErrSyntax)
  | _ => loop s 0
  end.

(** What the documentation of [ParseUint] says, for comparison: the
    decimal value of a non-empty string of digits. *)
Definition is_digit (c : ascii) : bool :=
  (48 <=? byte_of c) && (byte_of c <=? 57).

Fixpoint all_digits (s : string) : bool :=
  match s with
  | EmptyString => true
  | String c s' => is_digit c && all_digits s'
  end.

Fixpoint decimal_from (s : string) (acc : Z) : Z :=
  match s with
  | EmptyString => acc
  | String c s' => decimal_from s' (acc * 10 + (byte_of c - 48))
  end.

Definition decimal_value (s : string) : Z := decimal_from s 0.

End strconv.

(* ===================================================================== *)
(** ** [rationalizeSize] *)
(* ===================================================================== *)

(** The conversion [uint(out64)] on a 64-bit platform. *)
Definition uint (z : Z) : Z := z mod 2 ^ 64.

Definition rationalizeSize (inp : string) : Z :=
  let '(out64, err) := strconv.ParseUint inp in
  let out := uint out64 in
  match err with
  | Some _ => DefaultSize
  | None =>
      if out >? MaxSize then MaxSize
      else if out <? MinSize then MinSize
      else out
  end.

(* ===================================================================== *)
(** ** [time.Time] and [timeBetween] *)
(* ===================================================================== *)

Module time.

(** An instant, as its reading in nanoseconds. *)
Abbreviation Time := Z.

(** A [Duration] is an [int64] count of nanoseconds. *)
Definition maxDuration : Z := 2 ^ 63 - 1.
Definition minDuration : Z := - 2 ^ 63.

Definition Before (t u : Time) : bool := t <? u.

(** [t.Sub(u)]: the difference, saturated to the range of [Duration]. *)
Definition Sub (t u : Time) : Z :=
  let d := t - u in
  if d >? maxDuration then maxDuration
  else if d <? minDuration then minDuration
  else d.

Definition Nanoseconds (d : Z) : Z := d.

End time.

(** Millis between two timestamps; Go's [/] on [int64] truncates. *)
Definition timeBetween (timeA timeB : time.Time) : Z :=
  let '(timeA, timeB) :=
    if time.Before timeB timeA then (timeB, timeA) else (timeA, timeB) in
  Z.quot (time.Nanoseconds (time.Sub timeB timeA)) 1000000.

(* ===================================================================== *)
(** ** Data of the collaborators *)
(* ===================================================================== *)

(** A Go [error]: [None] is [nil], [Some msg] an error value. *)
Definition error : Type := option string.

Definition is_nil (e : error) : bool :=
  match e with None => true | Some _ => false end.

Module minecraft.

(** [minecraft.User]; its zero value has two empty strings. *)
Record User : Type := mkUser { Id : string; Name : string }.

(** [minecraft.Skin]: the field [Image] is an [image.Image] interface
    value, [None] when it is [nil]. *)
Record Skin {image : Type} : Type := mkSkin { Image : option image }.
Arguments Skin : clear implicits.
Arguments mkSkin {image} _.

End minecraft.

#[global] Instance User_eq_dec : EqDecision minecraft.User.
Proof. solve_decision. Defined.

(** [MinotarConfig], the value behind the global [Config]. *)
Record MinotarConfig : Type := mkConfig {
  DiskCache : bool;
  ErrorLogging : bool;
  AccessLogging : bool
}.

(** [http.ResponseWriter], as what the handler has written to it:
    the status given to [WriteHeader] (if any), the header fields in the
    order of their [Add], and the body. *)
Record ResponseWriter : Type := mkResponse {
  status : option Z;
  header : list (string * string);
  body : string
}.

Definition emptyResponse : ResponseWriter := mkResponse None [] "".

Definition Header_Add (k v : string) (w : ResponseWriter) : ResponseWriter :=
  mkResponse (status w) (header w ++ [(k, v)]) (body w).

Definition WriteHeader (code : Z) (w : ResponseWriter) : ResponseWriter :=
  mkResponse (Some code) (header w) (body w).

Definition Write (data : string) (w : ResponseWriter) : ResponseWriter :=
  mkResponse (status w) (header w) (body w +:+ data).

(** [w.Header().Get(k)]: the first value added under [k]. *)
Fixpoint Header_Get (k : string) (h : list (string * string)) : option string :=
  match h with
  | [] => None
  | (k', v) :: h' => if String.eqb k k' then Some v else Header_Get k h'
  end.

(** [fmt.Sprintf("%d", z)] *)
Definition fmt_d (z : Z) : string := NilZero.string_of_int (Z.to_int z).

(* ===================================================================== *)
(** ** Effects: disk, clock and the calls made *)
(* ===================================================================== *)

(** What a run does to the outside, in order.  [ServedDefault] is a ghost
    event: it is emitted at the two places where [fetchSkin] substitutes
    the skin of [char], and is what the resolution outcome is read from. *)
Inductive Event : Type :=
  | EvOpen (path : string)
  | EvWriteFile (path data : string)
  | EvGetSkin (u : minecraft.User)
  | EvGetUser (name : string)
  | ServedDefault.

(** The state a handler runs in: the files below [skins/] and the number
    of clock readings taken so far. *)
Record World : Type := mkWorld {
  disk : gmap string string;
  ticks : nat
}.

(** State and trace: a computation maps a world to its result, the next
    world and the events it produced. *)
Definition M (A : Type) : Type := World -> A * World * list Event.

Definition ret {A} (a : A) : M A := fun w => (a, w, []).

Definition bind {A B} (m : M A) (f : A -> M B) : M B :=
  fun w =>
    let '(a, w1, e1) := m w in
    let '(b, w2, e2) := f a w1 in
    (b, w2, e1 ++ e2).

#[global] Instance M_ret : MRet M := @ret.
#[global] Instance M_bind : MBind M := fun A B f m => bind m f.

Definition emit (e : Event) : M unit := fun w => (tt, w, [e]).

Definition result {A} (r : A * World * list Event) : A := r.1.1.
Definition world_after {A} (r : A * World * list Event) : World := r.1.2.
Definition events {A} (r : A * World * list Event) : list Event := r.2.

(** [ResolutionOutcome] of a run, read from its events. *)
Inductive ResolutionOutcome : Set := Resolved | Fallback.

Definition is_default (e : Event) : bool :=
  match e with ServedDefault => true | _ => false end.

Definition is_remote (e : Event) : bool :=
  match e with EvGetSkin _ | EvGetUser _ => true | _ => false end.

Definition is_write (e : Event) : bool :=
  match e with EvWriteFile _ _ => true | _ => false end.

Definition outcome (evs : list Event) : ResolutionOutcome :=
  if existsb is_default evs then Fallback else Resolved.

Definition remote_calls (evs : list Event) : list Event := filter is_remote evs.
Definition cache_writes (evs : list Event) : list Event := filter is_write evs.

(* ===================================================================== *)
(** ** The collaborators outside [main.go] *)
(* ===================================================================== *)

(** Everything the program calls and does not define: the two remote
    calls of package [minecraft], [image.Decode], the byte conversion
    [[]byte(skin.Image)], whether [ioutil.WriteFile] succeeds on a path,
    the readings of [time.Now], and [Resize] and the PNG encoder behind
    [WritePNG], which live in other files of the repository.  A remote
    call returns a value and an error, as in Go; the value that comes with
    a non-nil error is whatever the callee returns there. *)
Record Outside {image : Type} : Type := mkOutside {
  GetSkin : minecraft.User -> minecraft.Skin image * error;
  GetUser : string -> minecraft.User * error;
  Decode : string -> option image * error;
  toBytes : option image -> string;
  writable : string -> bool;
  clock : nat -> time.Time;
  Resize : Z -> Z -> option image -> option image;
  encodePNG : option image -> string
}.
Arguments Outside : clear implicits.

Section Program.

Context {image : Type}.
Variable env : Outside image.
Variable Config : MinotarConfig.

Local Abbreviation Skin := (minecraft.Skin image).

(** *** Primitive effects *)

(** [os.Open(path)]: the file's contents stand for the open file. *)
Definition os_Open (path : string) : M (string * error) :=
  fun w =>
    match disk w !! path with
    | Some contents => ((contents, None), w, [EvOpen path])
    | None => (("", Some "open: no such file or directory"), w, [EvOpen path])
    end.

(** [ioutil.WriteFile(path, data, ...)]: replaces the whole file, or
    fails and leaves the disk as it was. *)
Definition ioutil_WriteFile (path data : string) : M error :=
  fun w =>
    if writable env path
    then (None, mkWorld (<[path := data]> (disk w)) (ticks w),
          [EvWriteFile path data])
    else (Some "write: permission denied", w, [EvWriteFile path data]).

Definition minecraft_GetSkin (u : minecraft.User) : M (Skin * error) :=
  _ ← emit (EvGetSkin u); mret (GetSkin env u).

Definition minecraft_GetUser (name : string) : M (minecraft.User * error) :=
  _ ← emit (EvGetUser name); mret (GetUser env name).

(** [time.Now()] *)
Definition time_Now : M time.Time :=
  fun w => (clock env (ticks w), mkWorld (disk w) (S (ticks w)), []).

(** *** The disk cache *)

Definition skinPath (username : string) : string :=
  "skins/" +:+ username +:+ ".png".

(** The error of [ioutil.WriteFile] is dropped. *)
Definition saveLocalSkin (username : string) (skin : Skin) : M unit :=
  _ ← ioutil_WriteFile (skinPath username) (toBytes env (minecraft.Image skin));
  mret tt.

Definition getLocalSkin (username : string) : M (Skin * error) :=
  '(fs, err) ← os_Open (skinPath username);
  match err with
  | Some _ => mret (minecraft.mkSkin None, err)
  | None =>
      let '(img, err) := Decode env fs in
      match err with
      | Some _ => mret (minecraft.mkSkin None, err)
      | None => mret (minecraft.mkSkin img, err)
      end
  end.

(** *** The skin resolver *)

Definition char : minecraft.User := minecraft.mkUser "" "char".

(** [skin, _ = minecraft.GetSkin(minecraft.User{Name: "char"})]: the
    error is dropped, the value kept. *)
Definition serveChar : M Skin :=
  '(skin, _) ← minecraft_GetSkin char;
  _ ← emit ServedDefault;
  mret skin.

(** The part of [fetchSkin] after the disk cache was consulted. *)
Definition fetchSkinRemote (username : string) : M Skin :=
  '(skin, err) ← minecraft_GetSkin (minecraft.mkUser "" username);
  match err with
  | Some _ =>
      (* Problem with the returned image: hit the accounts api *)
      '(user, err) ← minecraft_GetUser username;
      skin ← match err with
             | Some _ =>
                 (* There's no account for this person, serve char *)
                 serveChar
             | None =>
                 (* Get valid skin *)
                 '(skin, err) ← minecraft_GetSkin user;
                 match err with
                 | Some _ =>
                     (* Their skin somehow errored, fallback *)
                     serveChar
                 | None => mret skin
                 end
             end;
      _ ← (if DiskCache Config
           then saveLocalSkin (minecraft.Name user) skin
           else mret tt);
      mret skin
  | None => mret skin
  end.

Definition fetchSkin (username : string) : M Skin :=
  if DiskCache Config then
    (* Check for the skin locally first *)
    '(skin, err) ← getLocalSkin username;
    match err with
    | None => mret skin
    | Some _ => fetchSkinRemote username
    end
  else fetchSkinRemote username.

(** *** The request pipeline *)

Definition addCacheTimeoutHeader (w : ResponseWriter) (timeout : Z)
  : ResponseWriter :=
  Header_Add "Cache-Control" ("max-age=" +:+ fmt_d timeout) w.

Definition serverErrorPage (w : ResponseWriter) : ResponseWriter :=
  Write "500 internal server error" (WriteHeader 500 w).

(** Modelled from the spec: [WritePNG] is in a file of the repository
    that is not at hand; it encodes the image (section 4.1, [Encode])
    and writes the bytes as the response body. *)
Definition WritePNG (w : ResponseWriter) (img : option image)
  : ResponseWriter :=
  Write (encodePNG env img) w.

(** [mux.Vars(r)[k]]: a missing key reads as the empty string. *)
Definition var (vars : gmap string string) (k : string) : string :=
  default "" (vars !! k).

(** The four durations printed into [X-Timing]. *)
Definition timings (timeReqStart timeFetch timeProcess timeResize : time.Time)
  : Z * Z * Z * Z :=
  (timeBetween timeReqStart timeFetch,
   timeBetween timeFetch timeProcess,
   timeBetween timeProcess timeResize,
   timeBetween timeReqStart timeResize).

(** [fmt.Sprintf("%d+%d+%d=%dms", a, b, c, d)] *)
Definition sprintf_timing (t : Z * Z * Z * Z) : string :=
  let '(a, b, c, d) := t in
  fmt_d a +:+ "+" +:+ fmt_d b +:+ "+" +:+ fmt_d c +:+ "=" +:+ fmt_d d +:+ "ms".

(** The handler returned by [fetchImageProcessThen(callback)], run on
    the route variables [vars] and the response writer [w]. *)
Definition fetchImageProcessThen
    (callback : Skin -> option image * error)
    (w : ResponseWriter) (vars : gmap string string) : M ResponseWriter :=
  timeReqStart ← time_Now;
  let username := var vars "username" in
  let size := rationalizeSize (var vars "size") in
  let ok := true in
  skin ← fetchSkin username;
  timeFetch ← time_Now;
  let '(img, err) := callback skin in
  match err with
  | Some _ => mret (serverErrorPage w)
  | None =>
      timeProcess ← time_Now;
      let imgResized := Resize env size size img in
      timeResize ← time_Now;
      let w := Header_Add "Content-Type" "image/png" w in
      let w := Header_Add "X-Requested" "processed" w in
      let '(w, timeout) :=
        if ok : bool
        then (Header_Add "X-Result" "ok" w, TimeoutActualSkin)
        else (Header_Add "X-Result" "failed" w, TimeoutFailedFetch) in
      let w := Header_Add "X-Timing"
                 (sprintf_timing
                    (timings timeReqStart timeFetch timeProcess timeResize)) w in
      let w := addCacheTimeoutHeader w timeout in
      mret (WritePNG w imgResized)
  end.

End Program.

(* ===================================================================== *)
(** ** A concrete outside, for running the program *)
(* ===================================================================== *)

Module Mock.

(** An image stands for its encoded bytes; bytes that start with [PNG]
    decode, others do not. *)
Definition image : Type := string.

Definition decodePNG (bytes : string) : option image * error :=
  if String.prefix "PNG" bytes then (Some bytes, None)
  else (None, Some "image: unknown format").

(** A skin store holding a record for each name of [known]. *)
Definition skinStore (known : list string) (u : minecraft.User)
  : minecraft.Skin image * error :=
  if existsb (String.eqb (minecraft.Name u)) known
  then (minecraft.mkSkin (Some ("PNG:" +:+ minecraft.Name u)), None)
  else (minecraft.mkSkin None, Some "skin not found").

(** An accounts service: each pair maps a requested name to the
    canonical name of the account. *)
Fixpoint accounts (known : list (string * string)) (name : string)
  : minecraft.User * error :=
  match known with
  | [] => (minecraft.mkUser "" "", Some "user not found")
  | (n, canonical) :: rest =>
      if String.eqb n name then (minecraft.mkUser "id" canonical, None)
      else accounts rest name
  end.

Definition outside (skins : list string) (accts : list (string * string))
    (readings : list Z) : Outside image :=
  {| GetSkin := skinStore skins;
     GetUser := accounts accts;
     Decode := decodePNG;
     toBytes := default "";
     writable := fun _ => true;
     clock := fun n => nth n readings 0;
     Resize := fun _ _ img => img;
     encodePNG := default "" |}.

Definition cacheOn : MinotarConfig := mkConfig true true false.
Definition cacheOff : MinotarConfig := mkConfig false true false.

Definition freshWorld : World := mkWorld ∅ 0.

(** The head callback stands for [GetHead]: it fails on a skin without
    an image. *)
Definition head (skin : minecraft.Skin image) : option image * error :=
  match minecraft.Image skin with
  | Some img => (Some img, None)
  | None => (None, Some "no image")
  end.

Definition request (username size : string) : gmap string string :=
  <["size" := size]> (<["username" := username]> ∅).

(** A world whose disk cache holds [bytes] for [username]. *)
Definition worldWith (username bytes : string) : World :=
  mkWorld {[ skinPath username := bytes ]} 0.

(** Four clock readings, 0.6 ms apart and then none. *)
Definition readings : list Z := [0; 600000; 1200000; 1200000].

End Mock.

(* ===================================================================== *)
(** ** The size rule in the specification's words *)
(* ===================================================================== *)

(** A string parses as an unsigned integer when it is a non-empty run of
    decimal digits whose value fits the 64-bit [uint]. *)
Definition parsable (inp : string) : bool :=
  negb (String.eqb inp "")
  && strconv.all_digits inp
  && (strconv.decimal_value inp <? 2 ^ 64).

(** 180 when unparsable, [MaxSize] above 300, [MinSize] below 8, the
    parsed value otherwise. *)
Definition effectiveSize (inp : string) : Z :=
  if parsable inp then
    let v := strconv.decimal_value inp in
    if 300 <? v then MaxSize else if v <? 8 then MinSize else v
  else 180.

(* ===================================================================== *)
(** ** The handler's run, named *)
(* ===================================================================== *)

Section Run.

Context {image : Type}.
Variable env : Outside image.
Variable Config : MinotarConfig.

(** The world in which the handler resolves the skin: one clock reading
    was taken. *)
Definition afterStart (st : World) : World :=
  mkWorld (disk st) (S (ticks st)).

(** The skin the handler hands to its callback. *)
Definition resolvedSkin (vars : gmap string string) (st : World)
  : minecraft.Skin image :=
  result (fetchSkin env Config (var vars "username") (afterStart st)).

(** The response written when the callback succeeds with [img]. *)
Definition processedResponse (w : ResponseWriter)
    (vars : gmap string string) (st : World) (img : option image)
  : ResponseWriter :=
  let n := ticks st in
  let size := rationalizeSize (var vars "size") in
  mkResponse (status w)
    (header w ++
      [("Content-Type", "image/png");
       ("X-Requested", "processed");
       ("X-Result", "ok");
       ("X-Timing",
        sprintf_timing
          (timings (clock env n) (clock env (S n))
             (clock env (S (S n))) (clock env (S (S (S n))))));
       ("Cache-Control", "max-age=" +:+ fmt_d TimeoutActualSkin)])
    (body w +:+ encodePNG env (Resize env size size img)).

End Run.

(* ===================================================================== *)
(** ** The default skin *)
(* ===================================================================== *)

(** The default skin is the record the skin store holds under the name
    [char]: [s] is the default skin when the fetch of [char] succeeds
    with [s]. *)
Definition isDefaultSkin {image : Type} (env : Outside image)
    (s : minecraft.Skin image) : Prop :=
  GetSkin env char = (s, None).

(** A skin found for a real player: decoded from the cache entry of
    [username], or fetched without error from the skin store. *)
Definition isPlayerSkin {image : Type} (env : Outside image)
    (username : string) (st : World) (s : minecraft.Skin image) : Prop :=
  (exists bytes img,
      disk st !! skinPath username = Some bytes
      /\ Decode env bytes = (img, None)
      /\ s = minecraft.mkSkin img)
  \/ (exists u, GetSkin env u = (s, None)).

(* ===================================================================== *)
(** ** The other handlers of [main.go] *)
(* ===================================================================== *)

Definition StaticLocation : string := "www".

(** The double quote, for the header value of [downloadPage]. *)
Definition dquote : string := String (ascii_of_nat 34) EmptyString.

(** What static serving calls and does not define: [path.Clean], the
    error of [f.Stat()] on an opened file, and [http.ServeContent], which
    gets the response writer, the request path it was given, the path of
    the file and its contents. *)
Record StaticOutside : Type := mkStaticOutside {
  Clean : string -> string;
  Stat : string -> error;
  ServeContent : ResponseWriter -> string -> string -> string -> ResponseWriter
}.

Section Pages.

Context {image : Type}.
Variable env : Outside image.
Variable Config : MinotarConfig.
Variable static : StaticOutside.

(** [skinPage]: the raw skin of the player, always with [X-Result: ok]. *)
Definition skinPage (w : ResponseWriter) (vars : gmap string string)
  : M ResponseWriter :=
  let username := var vars "username" in
  skin ← fetchSkin env Config username;
  let w := Header_Add "Content-Type" "image/png" w in
  let w := Header_Add "X-Requested" "skin" w in
  let w := Header_Add "X-Result" "ok" w in
  mret (WritePNG env w (minecraft.Image skin)).

Definition downloadPage (w : ResponseWriter) (vars : gmap string string)
  : M ResponseWriter :=
  let w := Header_Add "Content-Disposition"
             ("attachment; filename=" +:+ dquote +:+ "skin.png" +:+ dquote) w in
  skinPage w vars.

(** [NotFoundHandler.ServeHTTP]: status 404, then the page
    [static/404.html] if it opens ([io.Copy]) and a plain text if not.
    Static files are looked up on the same disk as the cached skins. *)
Definition NotFoundHandler_ServeHTTP (w : ResponseWriter) : M ResponseWriter :=
  let w := WriteHeader 404 w in
  '(f, err) ← os_Open "static/404.html";
  match err with
  | Some _ => mret (Write "404 file not found" w)
  | None => mret (Write f w)
  end.

Definition notFoundPage (w : ResponseWriter) : M ResponseWriter :=
  NotFoundHandler_ServeHTTP w.

(** The request path [serveStatic] leaves in [r.URL.Path] for [inpath],
    and the path of the file it opens. *)
Definition cleanedPath (inpath : string) : string :=
  let inpath := Clean static inpath in
  if negb (String.prefix "/" inpath) then "/" +:+ inpath else inpath.

Definition staticPath (inpath : string) : string :=
  StaticLocation +:+ cleanedPath inpath.

(** [serveStatic]: the response writer after the call, and the error. *)
Definition serveStatic (w : ResponseWriter) (inpath : string)
  : M (ResponseWriter * error) :=
  let inpath := Clean static inpath in
  let inpath :=
    if negb (String.prefix "/" inpath) then "/" +:+ inpath else inpath in
  let path := StaticLocation +:+ inpath in
  '(f, err) ← os_Open path;
  match err with
  | Some _ => mret (w, err)
  | None =>
      match Stat static path with
      | Some e => mret (w, Some e)
      | None => mret (ServeContent static w inpath path f, None)
      end
  end.

(** [serveAssetPage], on the path of the request URL. *)
Definition serveAssetPage (w : ResponseWriter) (urlPath : string)
  : M ResponseWriter :=
  '(w, err) ← serveStatic w urlPath;
  match err with
  | Some _ => notFoundPage w
  | None => mret w
  end.

Definition indexPage (w : ResponseWriter) : M ResponseWriter :=
  '(w, err) ← serveStatic w "index.html";
  match err with
  | Some _ => notFoundPage w
  | None => mret w
  end.

End Pages.

(** The size rule on numbers: the clamp to [[MinSize], [MaxSize]]. *)
Definition clampSize (n : Z) : Z := Z.max MinSize (Z.min MaxSize n).

(** An outside that differs from [env] only in which writes succeed. *)
Definition withWritable {image : Type} (env : Outside image)
    (f : string -> bool) : Outside image :=
  {| GetSkin := GetSkin env;
     GetUser := GetUser env;
     Decode := Decode env;
     toBytes := toBytes env;
     writable := f;
     clock := clock env;
     Resize := Resize env;
     encodePNG := encodePNG env |}.

Definition is_open (e : Event) : bool :=
  match e with EvOpen _ => true | _ => false end.

Definition is_getUser (e : Event) : bool :=
  match e with EvGetUser _ => true | _ => false end.

(** Concrete static collaborators: [Clean] leaves its argument alone,
    [Stat] succeeds, [ServeContent] writes the contents. *)
Module MockStatic.

Definition plain : StaticOutside :=
  {| Clean := fun p => p;
     Stat := fun _ => None;
     ServeContent := fun w _ _ content => Write content w |}.

(** A disk that holds one static file. *)
Definition siteWith (path contents : string) : World :=
  mkWorld {[ path := contents ]} 0.

(** A skin store whose record for [notch] cannot be fetched although the
    account exists. *)
Definition brokenSkin : Outside Mock.image :=
  Mock.outside ["char"] [("notch", "notch")] Mock.readings.

End MockStatic.

(* ===================================================================== *)
(** * Properties *)
(* ===================================================================== *)

(** ** Size rationalisation *)

Lemma decimal_from_ge s : forall acc,
  strconv.all_digits s = true -> 0 <= acc -> acc <= strconv.decimal_from s acc.
Proof.
  induction s as [|c s IH]; intros acc Hd Hacc; simpl in *; [lia|].
  apply andb_prop in Hd as [Hc Hs].
  unfold strconv.is_digit in Hc. apply andb_prop in Hc as [H1 H2].
  apply Z.leb_le in H1, H2.
  specialize (IH (acc * 10 + (strconv.byte_of c - 48)) Hs). lia.
Qed.

Lemma digit_of_digit c :
  strconv.is_digit c = true ->
  strconv.digit (strconv.byte_of c) = Some (strconv.byte_of c - 48).
Proof. unfold strconv.is_digit, strconv.digit. intros ->. reflexivity. Qed.

Lemma digit_of_other c d :
  strconv.is_digit c = false ->
  strconv.digit (strconv.byte_of c) = Some d -> 10 <= d.
Proof.
  unfold strconv.is_digit, strconv.digit. intros ->.
  destruct (_ && _) eqn:E; [|discriminate].
  apply andb_prop in E as [E _]. apply Z.leb_le in E.
  intros [= <-]. lia.
Qed.

(** The loop of [ParseUint] computes the decimal value, and fails exactly
    when a byte is not a digit or the value leaves the 64-bit range. *)
Lemma loop_spec s : forall n,
  0 <= n < 2 ^ 64 ->
  if strconv.all_digits s && (strconv.decimal_from s n <? 2 ^ 64)
  then strconv.loop s n = (strconv.decimal_from s n, None)
  else exists v e, strconv.loop s n = (v, Some e).
Proof.
  induction s as [|c s IH]; intros n Hn; simpl.
  - destruct (Z.ltb_spec n (2 ^ 64)); [reflexivity | lia].
  - destruct (strconv.is_digit c) eqn:Hc; simpl.
    + rewrite (digit_of_digit _ Hc).
      unfold strconv.is_digit in Hc. apply andb_prop in Hc as [H1 H2].
      apply Z.leb_le in H1, H2.
      set (d := strconv.byte_of c - 48) in *.
      assert (Hd : 0 <= d < 10) by (unfold d; lia).
      unfold strconv.base.
      destruct (Z.geb_spec d 10) as [?|_]; [lia|].
      unfold strconv.cutoff, strconv.maxUint64, strconv.base,
        strconv.maxVal, strconv.IntSize, strconv.wrap64.
      change (2 ^ 64) with 18446744073709551616 in *.
      change ((18446744073709551616 - 1) / 10 + 1) with 1844674407370955162.
      destruct (Z.geb_spec n 1844674407370955162) as [Hc|Hc].
      * destruct (strconv.all_digits s) eqn:Hs; simpl; [|eauto].
        pose proof (decimal_from_ge s (n * 10 + d) Hs ltac:(lia)).
        destruct (Z.ltb_spec (strconv.decimal_from s (n * 10 + d))
                    18446744073709551616); [lia | eauto].
      * rewrite (Z.mod_small (n * 10)) by lia.
        destruct (Z_lt_ge_dec (n * 10 + d) 18446744073709551616) as [Hlt|Hge].
        -- rewrite (Z.mod_small (n * 10 + d)) by lia.
           destruct (Z.ltb_spec (n * 10 + d) (n * 10)); [lia|].
           destruct (Z.gtb_spec (n * 10 + d) (18446744073709551616 - 1));
             [lia|]. simpl.
           apply (IH (n * 10 + d)). lia.
        -- assert (Hm : (n * 10 + d) mod 18446744073709551616
                        = n * 10 + d - 18446744073709551616).
           { symmetry. apply (Z.mod_unique _ _ 1); lia. }
           rewrite Hm.
           destruct (Z.ltb_spec (n * 10 + d - 18446744073709551616) (n * 10));
             [|lia]. simpl.
           destruct (strconv.all_digits s) eqn:Hs; simpl; [|eauto].
           pose proof (decimal_from_ge s (n * 10 + d) Hs ltac:(lia)).
           destruct (Z.ltb_spec (strconv.decimal_from s (n * 10 + d))
                       18446744073709551616); [lia | eauto].
    + destruct (strconv.digit (strconv.byte_of c)) as [d|] eqn:Hd; [|eauto].
      pose proof (digit_of_other _ _ Hc Hd).
      unfold strconv.base. destruct (Z.geb_spec d 10); [eauto | lia].
Qed.

(** [ParseUint] against its documentation. *)
Lemma ParseUint_spec inp :
  if parsable inp
  then strconv.ParseUint inp = (strconv.decimal_value inp, None)
  else exists v e, strconv.ParseUint inp = (v, Some e).
Proof.
  unfold parsable, strconv.ParseUint, strconv.decimal_value.
  destruct inp as [|c s]; [simpl; eauto|].
  change (negb (String.eqb (String c s) "")) with true. rewrite andb_true_l.
  apply (loop_spec (String c s) 0). lia.
Qed.

Lemma decimal_value_nonneg inp :
  strconv.all_digits inp = true -> 0 <= strconv.decimal_value inp.
Proof. intros H. apply (decimal_from_ge inp 0 H). lia. Qed.

(** C6. For every size string the effective render size is the one the
    specification names (180 when the string does not parse as an unsigned
    integer, in particular when it is empty; 300 when the parsed value
    exceeds 300; 8 when it is below 8; the parsed value otherwise), and it
    always lies in [8, 300]: the function is total and has no error
    result. *)
Theorem rationalizeSize_effective (inp : string) :
  rationalizeSize inp = effectiveSize inp
  /\ MinSize <= rationalizeSize inp <= MaxSize
  /\ rationalizeSize "" = DefaultSize.
Proof.
  assert (Heq : rationalizeSize inp = effectiveSize inp).
  { unfold rationalizeSize, effectiveSize.
    pose proof (ParseUint_spec inp) as H.
    destruct (parsable inp) eqn:Hp.
    - rewrite H. unfold parsable in Hp.
      apply andb_prop in Hp as [Hp Hlt]. apply andb_prop in Hp as [_ Hd].
      apply Z.ltb_lt in Hlt. pose proof (decimal_value_nonneg _ Hd).
      unfold uint. rewrite Z.mod_small by lia.
      unfold MaxSize, MinSize.
      destruct (Z.gtb_spec (strconv.decimal_value inp) 300),
        (Z.ltb_spec 300 (strconv.decimal_value inp)); try lia; reflexivity.
    - destruct H as (v & e & ->). reflexivity. }
  split; [exact Heq|]. split; [|reflexivity].
  rewrite Heq. unfold effectiveSize, MinSize, MaxSize.
  destruct (parsable inp); [|lia].
  destruct (Z.ltb_spec 300 (strconv.decimal_value inp)); [lia|].
  destruct (Z.ltb_spec (strconv.decimal_value inp) 8); lia.
Qed.

(** ** The timing helper *)

(** [timeBetween] is the saturated distance of the two readings, in whole
    milliseconds. *)
Lemma timeBetween_dist (a b : time.Time) :
  timeBetween a b = Z.min (Z.abs (b - a)) time.maxDuration / 1000000.
Proof.
  unfold timeBetween, time.Before, time.Sub, time.Nanoseconds,
    time.maxDuration, time.minDuration.
  change (2 ^ 63) with 9223372036854775808.
  destruct (Z.ltb_spec b a).
  - destruct (Z.gtb_spec (a - b) (9223372036854775808 - 1)).
    + rewrite Z.quot_div_nonneg by lia. f_equal. lia.
    + destruct (Z.ltb_spec (a - b) (Z.opp 9223372036854775808)); [lia|].
      rewrite Z.quot_div_nonneg by lia. f_equal. lia.
  - destruct (Z.gtb_spec (b - a) (9223372036854775808 - 1)).
    + rewrite Z.quot_div_nonneg by lia. f_equal. lia.
    + destruct (Z.ltb_spec (b - a) (Z.opp 9223372036854775808)); [lia|].
      rewrite Z.quot_div_nonneg by lia. f_equal. lia.
Qed.

(** Between ordered readings less than [maxDuration] apart it is the plain
    quotient. *)
Lemma timeBetween_ordered (a b : time.Time) :
  a <= b -> b - a <= time.maxDuration ->
  timeBetween a b = (b - a) / 1000000.
Proof. intros H1 H2. rewrite timeBetween_dist. f_equal. lia. Qed.

(** C10. The millisecond difference does not depend on the order of its
    two arguments and is never negative. *)
Theorem timeBetween_symmetric_nonneg (a b : time.Time) :
  timeBetween a b = timeBetween b a /\ 0 <= timeBetween a b.
Proof.
  rewrite !timeBetween_dist. split.
  - f_equal. f_equal. lia.
  - apply Z.div_pos; [|lia].
    unfold time.maxDuration. change (2 ^ 63) with 9223372036854775808. lia.
Qed.

(** The three parts never add up to more than the total, and fall short
    of it by at most two milliseconds. *)
Lemma timings_bounds (t0 t1 t2 t3 : time.Time) :
  t0 <= t1 -> t1 <= t2 -> t2 <= t3 -> t3 - t0 <= time.maxDuration ->
  let '(fetch, process, resize, total) := timings t0 t1 t2 t3 in
  fetch + process + resize <= total <= fetch + process + resize + 2.
Proof.
  intros H01 H12 H23 Hmax. unfold timings.
  rewrite !timeBetween_ordered by lia.
  pose proof (Z.div_mod (t1 - t0) 1000000 ltac:(lia)).
  pose proof (Z.div_mod (t2 - t1) 1000000 ltac:(lia)).
  pose proof (Z.div_mod (t3 - t2) 1000000 ltac:(lia)).
  pose proof (Z.div_mod (t3 - t0) 1000000 ltac:(lia)).
  pose proof (Z.mod_pos_bound (t1 - t0) 1000000 ltac:(lia)).
  pose proof (Z.mod_pos_bound (t2 - t1) 1000000 ltac:(lia)).
  pose proof (Z.mod_pos_bound (t3 - t2) 1000000 ltac:(lia)).
  pose proof (Z.mod_pos_bound (t3 - t0) 1000000 ltac:(lia)).
  lia.
Qed.

(** ** The skin resolver *)

(** Unfolds the monadic code of the resolver down to pairs. *)
Ltac run_resolver :=
  cbv [fetchSkin fetchSkinRemote getLocalSkin saveLocalSkin serveChar
       minecraft_GetSkin minecraft_GetUser os_Open ioutil_WriteFile
       mbind mret M_bind M_ret bind ret emit result world_after events].

Section Resolver.

Context {image : Type}.
Variable env : Outside image.
Variable Config : MinotarConfig.

Local Abbreviation Skin := (minecraft.Skin image).

(** A direct hit in the skin store: one remote call, nothing else. *)
Lemma fetchSkinRemote_direct username st (skin : Skin) :
  GetSkin env (minecraft.mkUser "" username) = (skin, None) ->
  fetchSkinRemote env Config username st
  = (skin, st, [EvGetSkin (minecraft.mkUser "" username)]).
Proof. intros H. run_resolver. rewrite H. reflexivity. Qed.

(** The remote part always starts with the direct fetch. *)
Lemma fetchSkinRemote_first_call username st :
  exists rest,
    events (fetchSkinRemote env Config username st)
    = EvGetSkin (minecraft.mkUser "" username) :: rest.
Proof.
  run_resolver.
  destruct (GetSkin env (minecraft.mkUser "" username)) as [skin [e|]];
    [|eexists; reflexivity].
  destruct (GetUser env username) as [user [e'|]].
  - destruct (GetSkin env char) as [d ?].
    destruct (DiskCache Config); [destruct (writable env _)|];
      eexists; reflexivity.
  - destruct (GetSkin env user) as [s [e''|]];
      [destruct (GetSkin env char) as [d ?]|];
      (destruct (DiskCache Config); [destruct (writable env _)|]);
      eexists; reflexivity.
Qed.

(** With the disk cache on, a decodable entry is returned at once. *)
Lemma fetchSkin_hit username st bytes img :
  DiskCache Config = true ->
  disk st !! skinPath username = Some bytes ->
  Decode env bytes = (img, None) ->
  fetchSkin env Config username st
  = (minecraft.mkSkin img, st, [EvOpen (skinPath username)]).
Proof. intros Hc Hd Hi. run_resolver. rewrite Hc, Hd, Hi. reflexivity. Qed.

(** With the disk cache on, anything else than a decodable entry leads
    into the remote part, from the same world. *)
Lemma fetchSkin_miss username st :
  DiskCache Config = true ->
  (disk st !! skinPath username = None
   \/ exists bytes img e,
        disk st !! skinPath username = Some bytes
        /\ Decode env bytes = (img, Some e)) ->
  fetchSkin env Config username st
  = let r := fetchSkinRemote env Config username st in
    (result r, world_after r, EvOpen (skinPath username) :: events r).
Proof.
  intros Hc Hm. unfold fetchSkin. rewrite Hc.
  cbv [getLocalSkin os_Open mbind mret M_bind M_ret bind ret
       result world_after events].
  destruct Hm as [Hm | (bytes & img & e & Hm & Hd)]; rewrite Hm.
  - destruct (fetchSkinRemote env Config username st) as [[s w] evs].
    reflexivity.
  - rewrite Hd.
    destruct (fetchSkinRemote env Config username st) as [[s w] evs].
    reflexivity.
Qed.

(** With the disk cache off the resolver is its remote part. *)
Lemma fetchSkin_cache_off username st :
  DiskCache Config = false ->
  fetchSkin env Config username st = fetchSkinRemote env Config username st.
Proof. intros Hc. unfold fetchSkin. rewrite Hc. reflexivity. Qed.

(** The resolver never reads the clock. *)
Lemma fetchSkin_ticks username st :
  ticks (world_after (fetchSkin env Config username st)) = ticks st.
Proof.
  run_resolver.
  destruct (DiskCache Config) eqn:Hc.
  - destruct (disk st !! skinPath username) as [bytes|];
      [destruct (Decode env bytes) as [img [e|]]; [|reflexivity]|];
      (destruct (GetSkin env (minecraft.mkUser "" username)) as [skin [e1|]];
        [|reflexivity]);
      (destruct (GetUser env username) as [user [e2|]];
        [|destruct (GetSkin env user) as [s [e3|]]]);
      destruct (GetSkin env char) as [d ?];
      destruct (writable env _); reflexivity.
  - destruct (GetSkin env (minecraft.mkUser "" username)) as [skin [e1|]];
      [|reflexivity].
    destruct (GetUser env username) as [user [e2|]];
      [|destruct (GetSkin env user) as [s [e3|]]];
      destruct (GetSkin env char) as [d ?]; reflexivity.
Qed.

End Resolver.

Section ResolverClaims.

Context {image : Type}.
Variable env : Outside image.
Variable Config : MinotarConfig.

(** C4. When the disk cache is enabled and holds a decodable entry for
    the identifier, resolution returns that skin as [Resolved] at once:
    the only thing it does is open the cache file, so neither the skin
    store nor the accounts service is called, and the disk is left as it
    was. *)
Theorem cache_hit_no_remote_calls username st bytes img :
  DiskCache Config = true ->
  disk st !! skinPath username = Some bytes ->
  Decode env bytes = (img, None) ->
  let r := fetchSkin env Config username st in
  result r = minecraft.mkSkin img
  /\ outcome (events r) = Resolved
  /\ remote_calls (events r) = []
  /\ events r = [EvOpen (skinPath username)]
  /\ world_after r = st.
Proof.
  intros Hc Hd Hi r. subst r.
  rewrite (fetchSkin_hit env Config username st bytes img Hc Hd Hi).
  repeat split; reflexivity.
Qed.

(** C7. When the disk cache is enabled and holds an entry whose bytes do
    not decode, resolution goes on as on a cache miss: it returns what
    the remote part returns from the same world, and the first thing it
    does after opening the file is the skin-store fetch for the
    identifier. *)
Theorem undecodable_entry_is_miss username st bytes img e :
  DiskCache Config = true ->
  disk st !! skinPath username = Some bytes ->
  Decode env bytes = (img, Some e) ->
  let r := fetchSkin env Config username st in
  let r' := fetchSkinRemote env Config username st in
  result r = result r'
  /\ world_after r = world_after r'
  /\ events r = EvOpen (skinPath username) :: events r'
  /\ exists rest,
       events r = EvOpen (skinPath username)
                  :: EvGetSkin (minecraft.mkUser "" username) :: rest.
Proof.
  intros Hc Hd Hi r r'. subst r r'.
  rewrite (fetchSkin_miss env Config username st Hc)
    by (right; eauto).
  destruct (fetchSkinRemote_first_call env Config username st) as [rest Hr].
  cbv zeta. unfold result, world_after, events in *. simpl.
  repeat split; try reflexivity.
  exists rest. rewrite Hr. reflexivity.
Qed.

(** C5, amended. Whatever the remote calls, the cache file, the decoder
    and the write do, the resolver returns a skin and nothing else: its
    result type has no error.  The run is [Resolved] with a skin decoded
    from the cache or fetched without error, or it is [Fallback] with
    the value that the skin-store fetch of [char] returned, the error of
    that fetch dropped; this value is the default skin when that fetch
    succeeds. *)
Theorem fetchSkin_absorbs_failures username st :
  let r := fetchSkin env Config username st in
  (outcome (events r) = Resolved
   /\ isPlayerSkin env username st (result r))
  \/ (outcome (events r) = Fallback
      /\ result r = (GetSkin env char).1
      /\ forall d, isDefaultSkin env d -> result r = d).
Proof.
  assert (Hdef : forall s : minecraft.Skin image,
             s = (GetSkin env char).1 ->
             forall d, isDefaultSkin env d -> s = d).
  { intros s -> d Hd. unfold isDefaultSkin in Hd. rewrite Hd. reflexivity. }
  unfold isPlayerSkin. run_resolver.
  destruct (DiskCache Config) eqn:Hc.
  - destruct (disk st !! skinPath username) as [bytes|] eqn:Hd;
      [destruct (Decode env bytes) as [img [e|]] eqn:Hi;
       [|left; split; [reflexivity | left; eauto]]|];
      (destruct (GetSkin env (minecraft.mkUser "" username))
         as [skin [e1|]] eqn:H1;
       [|left; split; [reflexivity | right; eauto]]);
      (destruct (GetUser env username) as [user [e2|]] eqn:H2;
       [|destruct (GetSkin env user) as [s [e3|]] eqn:H3]);
      try (destruct (GetSkin env char) as [d ed] eqn:H4);
      destruct (writable env _);
      solve [ right; split; [reflexivity | split; [reflexivity | auto]]
            | left; split; [reflexivity | right; eauto] ].
  - destruct (GetSkin env (minecraft.mkUser "" username))
      as [skin [e1|]] eqn:H1;
      [|left; split; [reflexivity | right; eauto]].
    destruct (GetUser env username) as [user [e2|]] eqn:H2;
      [|destruct (GetSkin env user) as [s [e3|]] eqn:H3];
      try (destruct (GetSkin env char) as [d ed] eqn:H4);
      solve [ right; split; [reflexivity | split; [reflexivity | auto]]
            | left; split; [reflexivity | right; eauto] ].
Qed.

(** With the disk cache off nothing is ever written. *)
Lemma cache_off_no_writes username st :
  DiskCache Config = false ->
  let r := fetchSkin env Config username st in
  cache_writes (events r) = [] /\ world_after r = st.
Proof.
  intros Hc. run_resolver. rewrite Hc.
  destruct (GetSkin env (minecraft.mkUser "" username)) as [skin [e1|]];
    [|destruct st; split; reflexivity].
  destruct (GetUser env username) as [user [e2|]];
    [|destruct (GetSkin env user) as [s [e3|]]];
    try (destruct (GetSkin env char) as [d ed]);
    destruct st; split; reflexivity.
Qed.

(** The write of the resolver sits in the branch taken when the direct
    fetch failed: a direct success, with the disk cache on and nothing
    cached, leaves the disk as it was. *)
Lemma direct_success_writes_nothing username st (skin : minecraft.Skin image) :
  DiskCache Config = true ->
  disk st !! skinPath username = None ->
  GetSkin env (minecraft.mkUser "" username) = (skin, None) ->
  let r := fetchSkin env Config username st in
  result r = skin
  /\ outcome (events r) = Resolved
  /\ cache_writes (events r) = []
  /\ world_after r = st.
Proof.
  intros Hc Hd Hs r. subst r.
  rewrite (fetchSkin_miss env Config username st Hc) by (left; exact Hd).
  rewrite (fetchSkinRemote_direct env Config username st skin Hs).
  repeat split; reflexivity.
Qed.

(** The same branch writes on both fallbacks.  For an identifier that
    neither the cache, the skin store nor the accounts service knows,
    and with the disk cache on, the value fetched for [char] is written
    under the name that came with the error of [GetUser]. *)
Lemma unknown_identifier_is_written username st e1 e2 skin user :
  DiskCache Config = true ->
  disk st !! skinPath username = None ->
  GetSkin env (minecraft.mkUser "" username) = (skin, Some e1) ->
  GetUser env username = (user, Some e2) ->
  let r := fetchSkin env Config username st in
  let d := (GetSkin env char).1 in
  result r = d
  /\ outcome (events r) = Fallback
  /\ cache_writes (events r)
     = [EvWriteFile (skinPath (minecraft.Name user))
          (toBytes env (minecraft.Image d))].
Proof.
  intros Hc Hd Hs Hu r d. subst r d.
  rewrite (fetchSkin_miss env Config username st Hc) by (left; exact Hd).
  run_resolver. rewrite Hs, Hu, Hc.
  destruct (GetSkin env char) as [d ed]. simpl.
  destruct (writable env _); repeat split; reflexivity.
Qed.

End ResolverClaims.

(** ** The request pipeline *)

Section Pipeline.

Context {image : Type}.
Variable env : Outside image.
Variable Config : MinotarConfig.
Variable callback : minecraft.Skin image -> option image * error.

(** One run of the handler, step by step. *)
Lemma fetchImageProcessThen_run w vars st :
  let rs := fetchSkin env Config (var vars "username") (afterStart st) in
  let r := fetchImageProcessThen env Config callback w vars st in
  events r = events rs
  /\ result r
     = match callback (result rs) with
       | (_, Some _) => serverErrorPage w
       | (img, None) => processedResponse env w vars st img
       end.
Proof.
  intros rs r. subst r rs.
  pose proof (fetchSkin_ticks env Config (var vars "username")
                (afterStart st)) as Ht.
  unfold fetchImageProcessThen.
  cbv [mbind mret M_bind M_ret bind ret time_Now].
  fold (afterStart st).
  destruct (fetchSkin env Config (var vars "username") (afterStart st))
    as [[skin st2] evs].
  unfold world_after, result, events in *. simpl in *.
  destruct (callback skin) as [img [e|]]; simpl.
  - split; [apply app_nil_r | reflexivity].
  - split; [rewrite !app_nil_r; reflexivity|].
    unfold processedResponse, WritePNG, addCacheTimeoutHeader,
      Header_Add, Write. simpl.
    rewrite Ht. rewrite <- !app_assoc. reflexivity.
Qed.

(** Every processed response says [ok] and carries the long lifetime,
    whatever the outcome of the resolution: the flag [ok] is set to
    [true] and never changed. *)
Lemma processed_response_says_ok vars st img :
  let resp := processedResponse env emptyResponse vars st img in
  Header_Get "X-Result" (header resp) = Some "ok"
  /\ Header_Get "Cache-Control" (header resp)
     = Some ("max-age=" +:+ fmt_d TimeoutActualSkin).
Proof. split; reflexivity. Qed.

(** C9. If the callback returns an error on the resolved skin, the
    handler answers with the server-error page and writes nothing else;
    if it returns none, the handler does not touch the status and the
    response is not the server-error page.  So the error of the callback
    is passed on, and it is the only failure the handler produces after
    the resolution. *)
Theorem derivation_error_propagates w vars st :
  let r := fetchImageProcessThen env Config callback w vars st in
  match (callback (resolvedSkin env Config vars st)).2 with
  | Some _ =>
      result r = serverErrorPage w
      /\ status (result r) = Some 500
  | None =>
      status (result r) = status w
      /\ result r <> serverErrorPage w
  end.
Proof.
  intros r. subst r.
  destruct (fetchImageProcessThen_run w vars st) as [_ ->].
  unfold resolvedSkin.
  destruct (callback _) as [img [e|]]; simpl.
  - split; reflexivity.
  - split; [reflexivity|].
    intros H. apply (f_equal (fun x => length (header x))) in H.
    simpl in H. rewrite length_app in H. simpl in H. lia.
Qed.

(** C8, amended. For a processed request whose four clock readings do
    not decrease and lie within the range of a [Duration], the header
    [X-Timing] prints the three parts and the total, the three parts add
    up to at most the total, and the total exceeds their sum by at most
    two milliseconds (each part is truncated to whole milliseconds on
    its own). *)
Theorem timing_header_bounds vars st :
  let n := ticks st in
  let t0 := clock env n in
  let t1 := clock env (S n) in
  let t2 := clock env (S (S n)) in
  let t3 := clock env (S (S (S n))) in
  (callback (resolvedSkin env Config vars st)).2 = None ->
  t0 <= t1 -> t1 <= t2 -> t2 <= t3 -> t3 - t0 <= time.maxDuration ->
  let r := fetchImageProcessThen env Config callback emptyResponse vars st in
  let '(fetch, process, resize, total) := timings t0 t1 t2 t3 in
  Header_Get "X-Timing" (header (result r))
  = Some (sprintf_timing (fetch, process, resize, total))
  /\ fetch + process + resize <= total <= fetch + process + resize + 2.
Proof.
  intros n t0 t1 t2 t3 Hcb H01 H12 H23 Hmax r. subst r.
  destruct (fetchImageProcessThen_run emptyResponse vars st) as [_ ->].
  unfold resolvedSkin in Hcb.
  destruct (callback _) as [img [e|]]; [discriminate|].
  pose proof (timings_bounds t0 t1 t2 t3 H01 H12 H23 Hmax) as Hb.
  subst n t0 t1 t2 t3.
  destruct (timings _ _ _ _) as [[[a b] c] d] eqn:Ht.
  split; [|exact Hb].
  unfold processedResponse. rewrite Ht. reflexivity.
Qed.

End Pipeline.

(** ** Runs on concrete inputs *)

Section Scenarios.

Import Mock.

Example rationalizeSize_64 : rationalizeSize "64" = 64.
Proof. reflexivity. Qed.

Example rationalizeSize_small : rationalizeSize "3" = 8.
Proof. reflexivity. Qed.

Example rationalizeSize_large : rationalizeSize "301" = 300.
Proof. reflexivity. Qed.

Example rationalizeSize_letters : rationalizeSize "6x" = 180.
Proof. reflexivity. Qed.

Example rationalizeSize_overflow :
  rationalizeSize "18446744073709551616" = 180.
Proof. vm_compute. reflexivity. Qed.

Example timeBetween_swapped : timeBetween 5000000 2000000 = 3.
Proof. reflexivity. Qed.

(** An avatar of size 64 for a player whose skin is cached: resolved,
    no remote call. *)
Example cached_avatar :
  let env := outside ["char"; "notch"] [] readings in
  let r := fetchImageProcessThen env cacheOn head emptyResponse
             (request "notch" "64") (worldWith "notch" "PNG:cached") in
  outcome (events r) = Resolved
  /\ remote_calls (events r) = []
  /\ body (result r) = "PNG:cached"
  /\ Header_Get "Cache-Control" (header (result r))
     = Some "max-age=172800".
Proof. vm_compute. repeat split; reflexivity. Qed.

(** A skin reached through the accounts service is written under the
    canonical name: the same request misses the cache again, a request
    for the canonical name hits it. *)
Example canonical_fetch_key :
  let env := outside ["char"; "notch"] [("NOTCH", "notch")] readings in
  let r1 := fetchSkin env cacheOn "NOTCH" freshWorld in
  let r2 := fetchSkin env cacheOn "NOTCH" (world_after r1) in
  let r3 := fetchSkin env cacheOn "notch" (world_after r1) in
  cache_writes (events r1) = [EvWriteFile "skins/notch.png" "PNG:notch"]
  /\ length (remote_calls (events r2)) = 3%nat
  /\ remote_calls (events r3) = [].
Proof. vm_compute. repeat split; reflexivity. Qed.

(** C1, at the failing input. A request for a player that nobody knows,
    disk cache off: the resolution falls back to the skin of [char], yet
    the response says [ok] and carries the long lifetime
    [TimeoutActualSkin], not [failed] and [TimeoutFailedFetch]. *)
Theorem fallback_reported_ok :
  let env := outside ["char"] [] readings in
  let r := fetchImageProcessThen env cacheOff head emptyResponse
             (request "ghost" "64") freshWorld in
  outcome (events r) = Fallback
  /\ body (result r) = "PNG:char"
  /\ Header_Get "X-Result" (header (result r)) = Some "ok"
  /\ Header_Get "Cache-Control" (header (result r))
     = Some ("max-age=" +:+ fmt_d TimeoutActualSkin)
  /\ TimeoutActualSkin <> TimeoutFailedFetch.
Proof. vm_compute. repeat split; try reflexivity. discriminate. Qed.

(** C2, at the failing input. Disk cache on and empty, a player with a
    record in the skin store: the direct fetch resolves the skin, nothing
    is written, and resolving the same identifier again calls the skin
    store again. *)
Theorem direct_fetch_not_persisted :
  let env := outside ["char"; "notch"] [] readings in
  let r1 := fetchSkin env cacheOn "notch" freshWorld in
  let r2 := fetchSkin env cacheOn "notch" (world_after r1) in
  outcome (events r1) = Resolved
  /\ result r1 = minecraft.mkSkin (Some "PNG:notch")
  /\ cache_writes (events r1) = []
  /\ disk (world_after r1) !! skinPath "notch" = None
  /\ remote_calls (events r2) = [EvGetSkin (minecraft.mkUser "" "notch")].
Proof. vm_compute. repeat split; reflexivity. Qed.

(** C3, at the failing input. Disk cache on and empty, an identifier
    without skin and without account: the resolution falls back to the
    skin of [char] and writes it to the disk cache, under the empty name
    that came with the error of the accounts service. *)
Theorem unknown_identifier_default_cached :
  let env := outside ["char"] [] readings in
  let r := fetchSkin env cacheOn "ghost" freshWorld in
  outcome (events r) = Fallback
  /\ result r = minecraft.mkSkin (Some "PNG:char")
  /\ cache_writes (events r) = [EvWriteFile "skins/.png" "PNG:char"]
  /\ disk (world_after r) !! "skins/.png" = Some "PNG:char".
Proof. vm_compute. repeat split; reflexivity. Qed.

(** C5 as stated fails: with the skin store down for every name, [char]
    included, the run is a [Fallback] whose skin is the empty value that
    came with the error, and there is no default skin at all. *)
Lemma store_down_no_default_cex :
  let env := outside [] [] readings in
  let r := fetchSkin env cacheOff "ghost" freshWorld in
  outcome (events r) = Fallback
  /\ result r = minecraft.mkSkin None
  /\ ~ isDefaultSkin env (result r)
  /\ ~ (forall (e : Outside image) (c : MinotarConfig) (u : string)
          (st : World),
          outcome (events (fetchSkin e c u st)) = Fallback ->
          isDefaultSkin e (result (fetchSkin e c u st))).
Proof.
  assert (H : ~ isDefaultSkin (outside [] [] readings)
                (result (fetchSkin (outside [] [] readings) cacheOff
                           "ghost" freshWorld))).
  { unfold isDefaultSkin. vm_compute. discriminate. }
  cbv zeta. repeat split; try reflexivity; [exact H|].
  intros Hall. apply H, Hall. reflexivity.
Qed.

(** C8 as stated fails: readings 0, 0.6 ms, 1.2 ms and 1.2 ms give the
    header [0+0+0=1ms]. *)
Lemma timing_not_additive_cex :
  let env := outside ["char"; "notch"] [] readings in
  let r := fetchImageProcessThen env cacheOff head emptyResponse
             (request "notch" "64") freshWorld in
  Header_Get "X-Timing" (header (result r)) = Some "0+0+0=1ms"
  /\ timings 0 600000 1200000 1200000 = (0, 0, 0, 1)
  /\ ~ (forall t0 t1 t2 t3 : time.Time,
          let '(fetch, process, resize, total) := timings t0 t1 t2 t3 in
          fetch + process + resize = total).
Proof.
  split; [vm_compute; reflexivity|].
  split; [vm_compute; reflexivity|].
  intros H. specialize (H 0 600000 1200000 1200000).
  vm_compute in H. discriminate.
Qed.

(** ** Instances of the conditional theorems *)

Lemma cache_hit_no_remote_calls_witness :
  let env := outside ["char"] [] readings in
  let st := worldWith "notch" "PNG:cached" in
  let r := fetchSkin env cacheOn "notch" st in
  (DiskCache cacheOn = true
   /\ disk st !! skinPath "notch" = Some "PNG:cached"
   /\ Decode env "PNG:cached" = (Some "PNG:cached", None))
  /\ result r = minecraft.mkSkin (Some "PNG:cached")
  /\ outcome (events r) = Resolved
  /\ remote_calls (events r) = []
  /\ events r = [EvOpen (skinPath "notch")]
  /\ world_after r = st.
Proof.
  cbv zeta.
  assert (H1 : DiskCache cacheOn = true) by reflexivity.
  assert (H2 : disk (worldWith "notch" "PNG:cached") !! skinPath "notch"
               = Some "PNG:cached") by (vm_compute; reflexivity).
  assert (H3 : Decode (outside ["char"] [] readings) "PNG:cached"
               = (Some "PNG:cached", None)) by reflexivity.
  split; [repeat split; assumption|].
  exact (cache_hit_no_remote_calls (outside ["char"] [] readings) cacheOn
           "notch" (worldWith "notch" "PNG:cached") "PNG:cached"
           (Some "PNG:cached") H1 H2 H3).
Defined.

Lemma undecodable_entry_is_miss_witness :
  let env := outside ["char"; "notch"] [] readings in
  let st := worldWith "notch" "garbage" in
  let r := fetchSkin env cacheOn "notch" st in
  let r' := fetchSkinRemote env cacheOn "notch" st in
  (DiskCache cacheOn = true
   /\ disk st !! skinPath "notch" = Some "garbage"
   /\ Decode env "garbage" = (None, Some "image: unknown format"))
  /\ result r = result r'
  /\ world_after r = world_after r'
  /\ events r = EvOpen (skinPath "notch") :: events r'
  /\ exists rest,
       events r = EvOpen (skinPath "notch")
                  :: EvGetSkin (minecraft.mkUser "" "notch") :: rest.
Proof.
  cbv zeta.
  assert (H1 : DiskCache cacheOn = true) by reflexivity.
  assert (H2 : disk (worldWith "notch" "garbage") !! skinPath "notch"
               = Some "garbage") by (vm_compute; reflexivity).
  assert (H3 : Decode (outside ["char"; "notch"] [] readings) "garbage"
               = (None, Some "image: unknown format")) by reflexivity.
  split; [repeat split; assumption|].
  exact (undecodable_entry_is_miss (outside ["char"; "notch"] [] readings)
           cacheOn "notch" (worldWith "notch" "garbage") "garbage"
           None "image: unknown format" H1 H2 H3).
Defined.

Lemma timing_header_bounds_witness :
  let env := outside ["char"; "notch"] [] readings in
  let r := fetchImageProcessThen env cacheOff head emptyResponse
             (request "notch" "64") freshWorld in
  Header_Get "X-Timing" (header (result r))
  = Some (sprintf_timing (0, 0, 0, 1))
  /\ 0 + 0 + 0 <= 1 <= 0 + 0 + 0 + 2.
Proof.
  cbv zeta.
  refine (timing_header_bounds (outside ["char"; "notch"] [] readings)
            cacheOff head (request "notch" "64") freshWorld
            _ _ _ _ _).
  - vm_compute. reflexivity.
  - vm_compute. discriminate.
  - vm_compute. discriminate.
  - vm_compute. discriminate.
  - vm_compute. discriminate.
Defined.

End Scenarios.

(* ===================================================================== *)
(** * Further properties of the code *)
(* ===================================================================== *)

(** ** Sizes written in decimal *)

Lemma rationalizeSize_parsable inp :
  parsable inp = true ->
  rationalizeSize inp = clampSize (strconv.decimal_value inp).
Proof.
  intros Hp. unfold rationalizeSize.
  pose proof (ParseUint_spec inp) as H. rewrite Hp in H. rewrite H.
  unfold parsable in Hp.
  apply andb_prop in Hp as [Hp Hlt]. apply andb_prop in Hp as [_ Hd].
  apply Z.ltb_lt in Hlt. pose proof (decimal_value_nonneg _ Hd).
  unfold uint. rewrite Z.mod_small by lia.
  unfold clampSize, MaxSize, MinSize.
  destruct (Z.gtb_spec (strconv.decimal_value inp) 300);
    [lia|]. destruct (Z.ltb_spec (strconv.decimal_value inp) 8); lia.
Qed.

Lemma rationalizeSize_unparsable inp :
  parsable inp = false -> rationalizeSize inp = DefaultSize.
Proof.
  intros Hp. unfold rationalizeSize.
  pose proof (ParseUint_spec inp) as H. rewrite Hp in H.
  destruct H as (v & e & ->). reflexivity.
Qed.

(** The digits that [%d] prints are digits for [ParseUint]. *)
Lemma string_of_uint_digits d :
  strconv.all_digits (NilEmpty.string_of_uint d) = true.
Proof. induction d; simpl; auto. Qed.

Lemma decimal_from_uint_acc d : forall acc : positive,
  strconv.decimal_from (NilEmpty.string_of_uint d) (Z.pos acc)
  = Z.pos (Pos.of_uint_acc d acc).
Proof.
  induction d; intros acc; simpl; try reflexivity;
    rewrite <- IHd; f_equal; unfold strconv.byte_of; simpl; lia.
Qed.

Lemma decimal_value_uint d :
  strconv.decimal_value (NilEmpty.string_of_uint d) = Z.of_N (Pos.of_uint d).
Proof.
  unfold strconv.decimal_value.
  induction d; simpl; try reflexivity; try exact IHd;
    rewrite <- decimal_from_uint_acc; reflexivity.
Qed.

Lemma string_of_uint_nonempty d :
  d <> Decimal.Nil -> String.eqb (NilEmpty.string_of_uint d) "" = false.
Proof. destruct d; simpl; congruence. Qed.

(** Printing a natural number with [%d] and reading it back gives the
    number. *)
Lemma fmt_d_parses n :
  0 <= n ->
  strconv.all_digits (fmt_d n) = true
  /\ String.eqb (fmt_d n) "" = false
  /\ strconv.decimal_value (fmt_d n) = n.
Proof.
  intros Hn. destruct n as [|p|p]; [repeat split; reflexivity | | lia].
  unfold fmt_d. simpl.
  pose proof (DecimalPos.Unsigned.to_uint_nonnil p) as Hnil.
  assert (Hs : NilZero.string_of_uint (Pos.to_uint p)
               = NilEmpty.string_of_uint (Pos.to_uint p)).
  { destruct (Pos.to_uint p); [congruence | reflexivity ..]. }
  rewrite Hs. split; [apply string_of_uint_digits|].
  split; [apply string_of_uint_nonempty, Hnil|].
  rewrite decimal_value_uint, DecimalPos.Unsigned.of_to. reflexivity.
Qed.

(** X1. A size given as the decimal text of a number below [2^64] is
    clamped to [8, 300]: printing with [%d] and rationalising is the
    clamp. *)
Theorem rationalizeSize_of_decimal (n : Z) :
  0 <= n < 2 ^ 64 ->
  rationalizeSize (fmt_d n) = clampSize n.
Proof.
  intros [H0 H1]. destruct (fmt_d_parses n H0) as (Hd & He & Hv).
  rewrite rationalizeSize_parsable; [rewrite Hv; reflexivity|].
  unfold parsable. rewrite He, Hd, Hv. simpl. apply Z.ltb_lt. exact H1.
Qed.

Lemma rationalizeSize_of_decimal_witness :
  0 <= 4096 < 2 ^ 64 /\ rationalizeSize (fmt_d 4096) = clampSize 4096.
Proof. split; [lia | apply (rationalizeSize_of_decimal 4096); lia]. Defined.

(** X2. Leading zeros do not change the size: on a non-empty string, a
    zero in front gives the same result. *)
Theorem rationalizeSize_leading_zero (s : string) :
  s <> "" ->
  rationalizeSize ("0" +:+ s) = rationalizeSize s.
Proof.
  intros Hs.
  assert (Hp : parsable ("0" +:+ s) = parsable s).
  { unfold parsable. destruct s as [|c s]; [congruence|]. reflexivity. }
  destruct (parsable s) eqn:E.
  - rewrite (rationalizeSize_parsable _ Hp), (rationalizeSize_parsable _ E).
    reflexivity.
  - rewrite (rationalizeSize_unparsable _ Hp), (rationalizeSize_unparsable _ E).
    reflexivity.
Qed.

Lemma rationalizeSize_leading_zero_witness :
  "64" <> "" /\ rationalizeSize ("0" +:+ "64") = rationalizeSize "64".
Proof.
  split; [discriminate | apply (rationalizeSize_leading_zero "64"); discriminate].
Defined.

(** X3. On the strings the size route admits (one digit or more) the
    result is the clamp of the value while the value fits 64 bits, and
    drops to the default 180 as soon as it does not: a value too large for
    [uint] is not clamped to [MaxSize]. *)
Theorem rationalizeSize_digits (s : string) :
  s <> "" -> strconv.all_digits s = true ->
  rationalizeSize s
  = if strconv.decimal_value s <? 2 ^ 64
    then clampSize (strconv.decimal_value s) else DefaultSize.
Proof.
  intros Hs Hd.
  assert (Hp : parsable s = (strconv.decimal_value s <? 2 ^ 64)).
  { unfold parsable. rewrite Hd. destruct s; [congruence | reflexivity]. }
  destruct (strconv.decimal_value s <? 2 ^ 64) eqn:E.
  - apply rationalizeSize_parsable, Hp.
  - apply rationalizeSize_unparsable, Hp.
Qed.

Lemma rationalizeSize_digits_witness :
  ("18446744073709551616" <> ""
   /\ strconv.all_digits "18446744073709551616" = true)
  /\ rationalizeSize "18446744073709551616" = DefaultSize.
Proof.
  split; [split; [discriminate | reflexivity]|].
  exact (rationalizeSize_digits "18446744073709551616"
           ltac:(discriminate) eq_refl).
Defined.

(** ** More on [timeBetween] *)

(** X4. The result is zero exactly when the two readings are less than a
    millisecond apart. *)
Theorem timeBetween_zero_iff (a b : time.Time) :
  timeBetween a b = 0 <-> Z.abs (b - a) < 1000000.
Proof.
  rewrite timeBetween_dist.
  unfold time.maxDuration. change (2 ^ 63 - 1) with 9223372036854775807.
  rewrite Z.div_small_iff by lia. lia.
Qed.

(** X5. Going through an intermediate reading costs at most one
    millisecond: the distance from [a] to [c] is at most the distances
    from [a] to [b] and from [b] to [c] plus one. *)
Theorem timeBetween_triangle (a b c : time.Time) :
  timeBetween a c <= timeBetween a b + timeBetween b c + 1.
Proof.
  rewrite !timeBetween_dist.
  unfold time.maxDuration. change (2 ^ 63 - 1) with 9223372036854775807.
  set (x := Z.min (Z.abs (c - a)) 9223372036854775807).
  set (y := Z.min (Z.abs (b - a)) 9223372036854775807).
  set (z := Z.min (Z.abs (c - b)) 9223372036854775807).
  assert (Hxyz : x <= y + z) by lia.
  assert (0 <= x /\ 0 <= y /\ 0 <= z) as (Hx & Hy & Hz) by lia.
  pose proof (Z.div_mod x 1000000 ltac:(lia)).
  pose proof (Z.div_mod y 1000000 ltac:(lia)).
  pose proof (Z.div_mod z 1000000 ltac:(lia)).
  pose proof (Z.mod_pos_bound x 1000000 ltac:(lia)).
  pose proof (Z.mod_pos_bound y 1000000 ltac:(lia)).
  pose proof (Z.mod_pos_bound z 1000000 ltac:(lia)).
  lia.
Qed.

(** X6. The result saturates: it never exceeds 9223372036854 ms, the
    largest [Duration] in milliseconds, and it is that value whenever the
    readings are a maximal [Duration] or more apart. *)
Theorem timeBetween_saturates (a b : time.Time) :
  timeBetween a b <= 9223372036854
  /\ (time.maxDuration <= Z.abs (b - a) -> timeBetween a b = 9223372036854).
Proof.
  rewrite timeBetween_dist.
  unfold time.maxDuration. change (2 ^ 63 - 1) with 9223372036854775807.
  split.
  - change 9223372036854 with (9223372036854775807 / 1000000).
    apply Z.div_le_mono; lia.
  - intros H. rewrite Z.min_r by lia. reflexivity.
Qed.

Lemma timeBetween_saturates_witness :
  time.maxDuration <= Z.abs (2 ^ 63 - 0)
  /\ timeBetween 0 (2 ^ 63) = 9223372036854.
Proof.
  split; [vm_compute; discriminate|].
  apply (timeBetween_saturates 0 (2 ^ 63)). vm_compute. discriminate.
Defined.

(** ** More on the skin resolver *)

Lemma string_length_app (a t : string) :
  String.length (a +:+ t) = (String.length a + String.length t)%nat.
Proof. induction a as [|c a IH]; simpl; [reflexivity | rewrite IH; reflexivity]. Qed.

Lemma string_app_inv_tail (a b t : string) :
  a +:+ t = b +:+ t -> a = b.
Proof.
  intros H.
  assert (Hl : String.length a = String.length b).
  { apply (f_equal String.length) in H.
    rewrite !string_length_app in H. lia. }
  revert b H Hl. induction a as [|c a IH]; intros [|c' b] H Hl;
    simpl in *; try discriminate; [reflexivity|].
  injection H as -> H. f_equal. apply IH; [exact H | lia].
Qed.

(** X7. Two names never share a cache file: the path of the cache entry
    determines the name. *)
Theorem skinPath_inj (a b : string) :
  skinPath a = skinPath b <-> a = b.
Proof.
  split; [|intros ->; reflexivity].
  unfold skinPath. intros H. simpl in H.
  repeat (injection H as H).
  exact (string_app_inv_tail a b ".png" H).
Qed.

Section ResolverMore.

Context {image : Type}.
Variable env : Outside image.
Variable Config : MinotarConfig.

(** Splits a run of the remote part into its branches. *)
Ltac remote_cases username :=
  destruct (GetSkin env (minecraft.mkUser "" username))
    as [skin0 [e0|]] eqn:Hdirect;
  [ destruct (GetUser env username) as [user [eu|]] eqn:Huser;
    [ | destruct (GetSkin env user) as [skinU [es|]] eqn:Hcanon ];
    try (destruct (GetSkin env char) as [d ed] eqn:Hchar)
  | ].

(** Splits a run of the resolver into its branches. *)
Ltac resolver_cases username st :=
  run_resolver;
  destruct (DiskCache Config) eqn:Hcache;
  [ destruct (disk st !! skinPath username) as [bytes|] eqn:Hdisk;
    [ destruct (Decode env bytes) as [img [ei|]] eqn:Hdec | ] | ];
  try remote_cases username;
  try (destruct (writable env _) eqn:Hw).

(** X8. One resolution opens the cache file at most once, writes at most
    once, asks the accounts service at most once and makes at most four
    remote calls in all. *)
Theorem fetchSkin_call_budget username st :
  let evs := events (fetchSkin env Config username st) in
  (length (filter is_open evs) <= 1)%nat
  /\ (length (cache_writes evs) <= 1)%nat
  /\ (length (filter is_getUser evs) <= 1)%nat
  /\ (length (remote_calls evs) <= 4)%nat.
Proof.
  resolver_cases username st; vm_compute; repeat split; lia.
Qed.

(** X9. Whenever the resolver writes, it writes once, with the disk cache
    on and after the direct fetch failed, and what it writes are the bytes
    of the skin it returns, under the name that came back from the
    accounts service. *)
Theorem fetchSkin_write_shape username st :
  let r := fetchSkin env Config username st in
  cache_writes (events r) = []
  \/ (DiskCache Config = true
      /\ (GetSkin env (minecraft.mkUser "" username)).2 <> None
      /\ cache_writes (events r)
         = [EvWriteFile (skinPath (minecraft.Name (GetUser env username).1))
              (toBytes env (minecraft.Image (result r)))]).
Proof.
  resolver_cases username st; cbn [fst snd];
    solve [ left; vm_compute; reflexivity
          | right; split; [reflexivity|];
            split; [discriminate | vm_compute; reflexivity] ].
Qed.

(** X10. A resolution leaves every cache file alone except possibly the
    one of the name that came back from the accounts service: the disk is
    unchanged, or that single entry was replaced. *)
Theorem fetchSkin_disk_frame username st :
  let r := fetchSkin env Config username st in
  ticks (world_after r) = ticks st
  /\ (disk (world_after r) = disk st
      \/ disk (world_after r)
         = <[skinPath (minecraft.Name (GetUser env username).1)
               := toBytes env (minecraft.Image (result r))]> (disk st)).
Proof.
  resolver_cases username st; cbn;
    (split; [reflexivity|]);
    solve [ left; reflexivity | right; reflexivity ].
Qed.

(** X11. With the disk cache off the resolver does not touch the disk:
    it opens nothing, writes nothing and leaves the world as it was. *)
Theorem cache_off_no_disk_access username st :
  DiskCache Config = false ->
  let r := fetchSkin env Config username st in
  filter is_open (events r) = []
  /\ cache_writes (events r) = []
  /\ world_after r = st.
Proof.
  intros Hoff. resolver_cases username st; try discriminate;
    destruct st; repeat split; reflexivity.
Qed.

(** X12. The resolver does not read the clock: from two worlds with the
    same disk it returns the same skin, makes the same calls and leaves
    the same disk. *)
Theorem fetchSkin_ignores_clock username (files : gmap string string)
    (n m : nat) :
  let r1 := fetchSkin env Config username (mkWorld files n) in
  let r2 := fetchSkin env Config username (mkWorld files m) in
  result r1 = result r2
  /\ events r1 = events r2
  /\ disk (world_after r1) = disk (world_after r2).
Proof.
  run_resolver.
  destruct (DiskCache Config); cbn [disk ticks];
    [ destruct (files !! skinPath username) as [bytes|];
      [ destruct (Decode env bytes) as [img [ei|]] | ] | ];
    try remote_cases username;
    try (destruct (writable env _));
    repeat split; reflexivity.
Qed.

(** X13. A failed write is silent: which writes succeed changes neither
    the skin returned nor the calls made, and when no write succeeds the
    world is left as it was. *)
Theorem write_failure_is_silent username st (f : string -> bool) :
  let r := fetchSkin env Config username st in
  let r' := fetchSkin (withWritable env f) Config username st in
  let r0 := fetchSkin (withWritable env (fun _ => false)) Config username st in
  result r' = result r
  /\ events r' = events r
  /\ world_after r0 = st.
Proof.
  run_resolver. cbn [withWritable GetSkin GetUser Decode toBytes writable].
  destruct (DiskCache Config);
    [ destruct (disk st !! skinPath username) as [bytes|];
      [ destruct (Decode env bytes) as [img [ei|]] | ] | ];
    try remote_cases username;
    try (destruct (writable env _));
    try (destruct (f _));
    destruct st; repeat split; reflexivity.
Qed.

(** X14. Save then load: after [saveLocalSkin] of a skin whose bytes
    decode back to its image, on a writable path, [getLocalSkin] of the
    same name returns that skin without error. *)
Theorem save_then_get username (skin : minecraft.Skin image) st :
  writable env (skinPath username) = true ->
  Decode env (toBytes env (minecraft.Image skin))
  = (minecraft.Image skin, None) ->
  let st' := world_after (saveLocalSkin env username skin st) in
  result (getLocalSkin env username st') = (skin, None).
Proof.
  intros Hw Hd.
  cbv [saveLocalSkin getLocalSkin os_Open ioutil_WriteFile
       mbind mret M_bind M_ret bind ret result world_after].
  rewrite Hw. cbn [disk fst snd]. rewrite lookup_insert_eq. rewrite Hd.
  destruct skin. reflexivity.
Qed.

(** X15. What the canonical fetch stores is found again: when the direct
    fetch fails, the accounts service names the account and the skin of
    the account is fetched and written, a later resolution of the
    canonical name returns the same skin from the cache without any
    remote call. *)
Theorem canonical_fetch_then_hit username st skin0 e0 user
    (skin : minecraft.Skin image) :
  DiskCache Config = true ->
  disk st !! skinPath username = None ->
  GetSkin env (minecraft.mkUser "" username) = (skin0, Some e0) ->
  GetUser env username = (user, None) ->
  GetSkin env user = (skin, None) ->
  writable env (skinPath (minecraft.Name user)) = true ->
  Decode env (toBytes env (minecraft.Image skin))
  = (minecraft.Image skin, None) ->
  let r1 := fetchSkin env Config username st in
  let r2 := fetchSkin env Config (minecraft.Name user) (world_after r1) in
  result r1 = skin
  /\ outcome (events r1) = Resolved
  /\ result r2 = skin
  /\ events r2 = [EvOpen (skinPath (minecraft.Name user))].
Proof.
  intros Hc Hm Hdirect Huser Hcanon Hw Hd r1 r2.
  assert (H1 : r1 = (skin,
                     mkWorld (<[skinPath (minecraft.Name user)
                                  := toBytes env (minecraft.Image skin)]>
                                (disk st)) (ticks st),
                     [EvOpen (skinPath username);
                      EvGetSkin (minecraft.mkUser "" username);
                      EvGetUser username; EvGetSkin user;
                      EvWriteFile (skinPath (minecraft.Name user))
                        (toBytes env (minecraft.Image skin))])).
  { subst r1. run_resolver.
    rewrite Hc, Hm, Hdirect, Huser, Hcanon, Hw. reflexivity. }
  subst r2. rewrite H1. cbn [result world_after events fst snd].
  erewrite (fetchSkin_hit env Config (minecraft.Name user) _
              (toBytes env (minecraft.Image skin)) (minecraft.Image skin) Hc);
    [ | cbn [disk]; apply lookup_insert_eq | exact Hd ].
  destruct skin. repeat split; reflexivity.
Qed.

(** X16. A fallback is stored like a skin: when the account exists and
    the fetch of its skin fails, the value fetched for [char] is written
    under the name of the account, and a later resolution of that name
    returns it from the cache as [Resolved], without any remote call. *)
Theorem fallback_is_cached_as_resolved username st skin0 e0 user skinU es :
  let d := (GetSkin env char).1 in
  DiskCache Config = true ->
  disk st !! skinPath username = None ->
  GetSkin env (minecraft.mkUser "" username) = (skin0, Some e0) ->
  GetUser env username = (user, None) ->
  GetSkin env user = (skinU, Some es) ->
  writable env (skinPath (minecraft.Name user)) = true ->
  Decode env (toBytes env (minecraft.Image d)) = (minecraft.Image d, None) ->
  let r1 := fetchSkin env Config username st in
  let r2 := fetchSkin env Config (minecraft.Name user) (world_after r1) in
  result r1 = d
  /\ outcome (events r1) = Fallback
  /\ result r2 = d
  /\ outcome (events r2) = Resolved
  /\ remote_calls (events r2) = [].
Proof.
  intros d Hc Hm Hdirect Huser Hcanon Hw Hd r1 r2.
  assert (H1 : r1 = (d,
                     mkWorld (<[skinPath (minecraft.Name user)
                                  := toBytes env (minecraft.Image d)]>
                                (disk st)) (ticks st),
                     [EvOpen (skinPath username);
                      EvGetSkin (minecraft.mkUser "" username);
                      EvGetUser username; EvGetSkin user;
                      EvGetSkin char; ServedDefault;
                      EvWriteFile (skinPath (minecraft.Name user))
                        (toBytes env (minecraft.Image d))])).
  { subst r1 d. run_resolver.
    rewrite Hc, Hm, Hdirect, Huser, Hcanon.
    destruct (GetSkin env char) as [dd ed]. cbn [fst]. rewrite Hw.
    reflexivity. }
  subst r2. rewrite H1. cbn [result world_after events fst snd].
  erewrite (fetchSkin_hit env Config (minecraft.Name user) _
              (toBytes env (minecraft.Image d)) (minecraft.Image d) Hc);
    [ | cbn [disk]; apply lookup_insert_eq | exact Hd ].
  destruct d. repeat split; reflexivity.
Qed.

End ResolverMore.

(** ** More on the request pipeline *)

Lemma rationalizeSize_range inp :
  MinSize <= rationalizeSize inp <= MaxSize.
Proof.
  destruct (parsable inp) eqn:E.
  - rewrite (rationalizeSize_parsable _ E).
    unfold clampSize, MinSize, MaxSize. lia.
  - rewrite (rationalizeSize_unparsable _ E).
    unfold DefaultSize, MinSize, MaxSize. lia.
Qed.

Section PipelineMore.

Context {image : Type}.
Variable env : Outside image.
Variable Config : MinotarConfig.
Variable callback : minecraft.Skin image -> option image * error.

(** X17. A processed response carries the image resized to a square
    whose side lies in [8, 300], whatever the size variable holds, and the
    side is 180 when the route has no size variable. *)
Theorem handler_resizes_within_bounds w vars st img :
  callback (resolvedSkin env Config vars st) = (img, None) ->
  let r := fetchImageProcessThen env Config callback w vars st in
  let side := rationalizeSize (var vars "size") in
  MinSize <= side <= MaxSize
  /\ body (result r) = body w +:+ encodePNG env (Resize env side side img)
  /\ (vars !! "size" = None -> side = DefaultSize).
Proof.
  intros Hcb r side. subst r side.
  split; [apply rationalizeSize_range|].
  destruct (fetchImageProcessThen_run env Config callback w vars st)
    as [_ ->].
  unfold resolvedSkin in Hcb. rewrite Hcb.
  split; [reflexivity|].
  intros Hv. unfold var. rewrite Hv. reflexivity.
Qed.

(** X18. A request whose skin is in the disk cache is answered from the
    disk alone: the handler opens the cache file and does nothing else to
    the outside, and the callback gets the cached skin. *)
Theorem handler_answers_from_cache w vars st bytes img :
  DiskCache Config = true ->
  disk st !! skinPath (var vars "username") = Some bytes ->
  Decode env bytes = (img, None) ->
  let r := fetchImageProcessThen env Config callback w vars st in
  events r = [EvOpen (skinPath (var vars "username"))]
  /\ remote_calls (events r) = []
  /\ resolvedSkin env Config vars st = minecraft.mkSkin img
  /\ result r
     = match callback (minecraft.mkSkin img) with
       | (_, Some _) => serverErrorPage w
       | (out, None) => processedResponse env w vars st out
       end.
Proof.
  intros Hc Hd Hi r. subst r.
  destruct (fetchImageProcessThen_run env Config callback w vars st)
    as [Hev Hres].
  assert (Hhit : fetchSkin env Config (var vars "username") (afterStart st)
                 = (minecraft.mkSkin img, afterStart st,
                    [EvOpen (skinPath (var vars "username"))])).
  { apply (fetchSkin_hit env Config _ (afterStart st) bytes img Hc); assumption. }
  unfold resolvedSkin. rewrite Hhit in Hev, Hres |- *.
  cbn [result events fst snd] in *.
  rewrite Hev, Hres. repeat split; reflexivity.
Qed.

End PipelineMore.

(** ** The other handlers *)

Lemma prefix_slash (s : string) :
  String.prefix "/" s = true -> exists rest, s = String "/" rest.
Proof.
  destruct s as [|c s]; [discriminate|].
  cbn [String.prefix].
  destruct (ascii_dec "/" c) as [<-|]; [eauto | discriminate].
Qed.

Section PagesMore.

Context {image : Type}.
Variable env : Outside image.
Variable Config : MinotarConfig.
Variable static : StaticOutside.

(** X19. [skinPage] answers with the encoded skin that the resolver
    returned, says [ok] and gives no cache lifetime, whatever the
    resolution did; it sets no status and does to the outside what the
    resolver does. *)
Theorem skinPage_response vars st :
  let rs := fetchSkin env Config (var vars "username") st in
  let r := skinPage env Config emptyResponse vars st in
  status (result r) = None
  /\ Header_Get "X-Result" (header (result r)) = Some "ok"
  /\ Header_Get "Cache-Control" (header (result r)) = None
  /\ body (result r) = encodePNG env (minecraft.Image (result rs))
  /\ events r = events rs
  /\ world_after r = world_after rs.
Proof.
  intros rs r. subst rs r. unfold skinPage.
  cbv [mbind mret M_bind M_ret bind ret].
  destruct (fetchSkin env Config (var vars "username") st) as [[skin st'] evs].
  cbn [result world_after events fst snd].
  repeat split; try reflexivity. apply app_nil_r.
Qed.

(** X20. [downloadPage] is [skinPage] with the attachment header in
    front: same status, same body, same calls, same world. *)
Theorem downloadPage_adds_disposition vars st :
  let r := skinPage env Config emptyResponse vars st in
  let r' := downloadPage env Config emptyResponse vars st in
  header (result r')
  = ("Content-Disposition",
     "attachment; filename=" +:+ dquote +:+ "skin.png" +:+ dquote)
    :: header (result r)
  /\ status (result r') = status (result r)
  /\ body (result r') = body (result r)
  /\ events r' = events r
  /\ world_after r' = world_after r.
Proof.
  intros r r'. subst r r'. unfold downloadPage, skinPage.
  cbv [mbind mret M_bind M_ret bind ret].
  destruct (fetchSkin env Config (var vars "username") st) as [[skin st'] evs].
  repeat split; reflexivity.
Qed.

(** X21. The not-found handler always sets status 404, leaves the headers
    alone, and appends the contents of [static/404.html] when that file
    opens and the text [404 file not found] when it does not; it only
    reads the disk. *)
Theorem notFound_response w st :
  let r := NotFoundHandler_ServeHTTP w st in
  status (result r) = Some 404
  /\ header (result r) = header w
  /\ body (result r)
     = body w +:+ default "404 file not found" (disk st !! "static/404.html")
  /\ events r = [EvOpen "static/404.html"]
  /\ world_after r = st.
Proof.
  intros r. subst r. unfold NotFoundHandler_ServeHTTP.
  cbv [mbind mret M_bind M_ret bind ret os_Open].
  destruct (disk st !! "static/404.html") as [f|];
    repeat split; reflexivity.
Qed.

(** X22. Whatever [path.Clean] returns, the one file [serveStatic] tries
    to open lies below [www/]; the call changes nothing on disk. *)
Theorem serveStatic_opens_below_www w inpath st :
  let r := serveStatic static w inpath st in
  events r = [EvOpen (staticPath static inpath)]
  /\ String.prefix "www/" (staticPath static inpath) = true
  /\ world_after r = st.
Proof.
  intros r. subst r. unfold serveStatic, staticPath, cleanedPath.
  cbv [mbind mret M_bind M_ret bind ret os_Open].
  set (p := StaticLocation +:+ _).
  assert (Hp : String.prefix "www/" p = true).
  { subst p. destruct (String.prefix "/" (Clean static inpath)) eqn:E.
    - apply prefix_slash in E as [rest ->]. destruct rest; reflexivity.
    - destruct (Clean static inpath); reflexivity. }
  destruct (disk st !! p) as [f|];
    [destruct (Stat static p)|]; repeat split; try reflexivity; exact Hp.
Qed.

(** X23. An asset request is answered by [http.ServeContent] on the
    contents of the file when the file opens and [Stat] succeeds; in every
    other case the answer is the not-found page with status 404, and
    [ServeContent] is not called. *)
Theorem serveAssetPage_cases w urlPath st :
  let r := serveAssetPage static w urlPath st in
  let p := staticPath static urlPath in
  match disk st !! p, Stat static p with
  | Some f, None =>
      result r = ServeContent static w (cleanedPath static urlPath) p f
      /\ events r = [EvOpen p]
  | _, _ =>
      result r = result (notFoundPage w st)
      /\ status (result r) = Some 404
      /\ events r = [EvOpen p; EvOpen "static/404.html"]
  end.
Proof.
  intros r p. subst r p.
  unfold serveAssetPage, serveStatic, notFoundPage, NotFoundHandler_ServeHTTP,
    staticPath, cleanedPath.
  cbv [mbind mret M_bind M_ret bind ret os_Open].
  set (p := StaticLocation +:+ _).
  destruct (disk st !! p) as [f|]; [destruct (Stat static p)|];
    cbn [result events fst snd];
    try (destruct (disk st !! "static/404.html"));
    repeat split; reflexivity.
Qed.

(** X24. When [path.Clean] leaves [index.html] as it is, the index page
    is the file [www/index.html], and without that file the answer is the
    not-found page with status 404. *)
Theorem indexPage_missing w st :
  Clean static "index.html" = "index.html" ->
  disk st !! "www/index.html" = None ->
  let r := indexPage static w st in
  result r = result (notFoundPage w st)
  /\ status (result r) = Some 404
  /\ events r = [EvOpen "www/index.html"; EvOpen "static/404.html"].
Proof.
  intros Hclean Hmiss r. subst r.
  unfold indexPage, serveStatic, notFoundPage, NotFoundHandler_ServeHTTP.
  rewrite Hclean.
  cbv [mbind mret M_bind M_ret bind ret os_Open].
  change (StaticLocation +:+ _) with "www/index.html".
  rewrite Hmiss. cbn [result events fst snd].
  destruct (disk st !! "static/404.html"); repeat split; reflexivity.
Qed.

End PagesMore.

(** ** Instances of the conditional properties *)

Section MoreInstances.

Import Mock MockStatic.

Lemma cache_off_no_disk_access_witness :
  let env := outside ["char"] [] readings in
  let r := fetchSkin env cacheOff "ghost" (worldWith "ghost" "PNG:old") in
  DiskCache cacheOff = false
  /\ filter is_open (events r) = []
  /\ cache_writes (events r) = []
  /\ world_after r = worldWith "ghost" "PNG:old".
Proof.
  cbv zeta. split; [reflexivity|].
  exact (cache_off_no_disk_access (outside ["char"] [] readings) cacheOff
           "ghost" (worldWith "ghost" "PNG:old") eq_refl).
Defined.

Lemma save_then_get_witness :
  let env := outside [] [] readings in
  let skin := minecraft.mkSkin (Some "PNG:steve") in
  let st' := world_after (saveLocalSkin env "steve" skin freshWorld) in
  (writable env (skinPath "steve") = true
   /\ Decode env (toBytes env (minecraft.Image skin))
      = (minecraft.Image skin, None))
  /\ result (getLocalSkin env "steve" st') = (skin, None).
Proof.
  cbv zeta. split; [split; reflexivity|].
  exact (save_then_get (outside [] [] readings) "steve"
           (minecraft.mkSkin (Some "PNG:steve")) freshWorld eq_refl eq_refl).
Defined.

Lemma canonical_fetch_then_hit_witness :
  let env := outside ["char"; "notch"] [("NOTCH", "notch")] readings in
  let user := minecraft.mkUser "id" "notch" in
  let skin := minecraft.mkSkin (Some "PNG:notch") in
  let r1 := fetchSkin env cacheOn "NOTCH" freshWorld in
  let r2 := fetchSkin env cacheOn (minecraft.Name user) (world_after r1) in
  (DiskCache cacheOn = true
   /\ disk freshWorld !! skinPath "NOTCH" = None
   /\ GetSkin env (minecraft.mkUser "" "NOTCH")
      = (minecraft.mkSkin None, Some "skin not found")
   /\ GetUser env "NOTCH" = (user, None)
   /\ GetSkin env user = (skin, None)
   /\ writable env (skinPath (minecraft.Name user)) = true
   /\ Decode env (toBytes env (minecraft.Image skin))
      = (minecraft.Image skin, None))
  /\ result r1 = skin
  /\ outcome (events r1) = Resolved
  /\ result r2 = skin
  /\ events r2 = [EvOpen (skinPath (minecraft.Name user))].
Proof.
  cbv zeta.
  assert (Hm : disk freshWorld !! skinPath "NOTCH" = None)
    by (vm_compute; reflexivity).
  split; [repeat split; try reflexivity; exact Hm|].
  exact (canonical_fetch_then_hit
           (outside ["char"; "notch"] [("NOTCH", "notch")] readings) cacheOn
           "NOTCH" freshWorld (minecraft.mkSkin None) "skin not found"
           (minecraft.mkUser "id" "notch") (minecraft.mkSkin (Some "PNG:notch"))
           eq_refl Hm eq_refl eq_refl eq_refl eq_refl eq_refl).
Defined.

Lemma fallback_is_cached_as_resolved_witness :
  let env := brokenSkin in
  let user := minecraft.mkUser "id" "notch" in
  let d := (GetSkin env char).1 in
  let r1 := fetchSkin env cacheOn "notch" freshWorld in
  let r2 := fetchSkin env cacheOn (minecraft.Name user) (world_after r1) in
  (DiskCache cacheOn = true
   /\ disk freshWorld !! skinPath "notch" = None
   /\ GetSkin env (minecraft.mkUser "" "notch")
      = (minecraft.mkSkin None, Some "skin not found")
   /\ GetUser env "notch" = (user, None)
   /\ GetSkin env user = (minecraft.mkSkin None, Some "skin not found")
   /\ writable env (skinPath (minecraft.Name user)) = true
   /\ Decode env (toBytes env (minecraft.Image d)) = (minecraft.Image d, None))
  /\ result r1 = d
  /\ outcome (events r1) = Fallback
  /\ result r2 = d
  /\ outcome (events r2) = Resolved
  /\ remote_calls (events r2) = [].
Proof.
  cbv zeta.
  assert (Hm : disk freshWorld !! skinPath "notch" = None)
    by (vm_compute; reflexivity).
  split; [repeat split; try reflexivity; exact Hm|].
  exact (fallback_is_cached_as_resolved brokenSkin cacheOn
           "notch" freshWorld (minecraft.mkSkin None) "skin not found"
           (minecraft.mkUser "id" "notch") (minecraft.mkSkin None)
           "skin not found"
           eq_refl Hm eq_refl eq_refl eq_refl eq_refl eq_refl).
Defined.

Lemma handler_resizes_within_bounds_witness :
  let env := outside ["char"; "notch"] [] readings in
  let vars := request "notch" "5000" in
  let r := fetchImageProcessThen env cacheOff head emptyResponse vars
             freshWorld in
  let side := rationalizeSize (var vars "size") in
  head (resolvedSkin env cacheOff vars freshWorld) = (Some "PNG:notch", None)
  /\ MinSize <= side <= MaxSize
  /\ body (result r)
     = body emptyResponse
       +:+ encodePNG env (Resize env side side (Some "PNG:notch"))
  /\ (vars !! "size" = None -> side = DefaultSize).
Proof.
  cbv zeta.
  assert (Hcb : head (resolvedSkin (outside ["char"; "notch"] [] readings)
                        cacheOff (request "notch" "5000") freshWorld)
                = (Some "PNG:notch", None)) by (vm_compute; reflexivity).
  split; [exact Hcb|].
  exact (handler_resizes_within_bounds
           (outside ["char"; "notch"] [] readings) cacheOff head
           emptyResponse (request "notch" "5000") freshWorld
           (Some "PNG:notch") Hcb).
Defined.

Lemma handler_answers_from_cache_witness :
  let env := outside ["char"] [] readings in
  let vars := request "notch" "64" in
  let st := worldWith "notch" "PNG:cached" in
  let r := fetchImageProcessThen env cacheOn head emptyResponse vars st in
  (DiskCache cacheOn = true
   /\ disk st !! skinPath (var vars "username") = Some "PNG:cached"
   /\ Decode env "PNG:cached" = (Some "PNG:cached", None))
  /\ events r = [EvOpen (skinPath (var vars "username"))]
  /\ remote_calls (events r) = []
  /\ resolvedSkin env cacheOn vars st = minecraft.mkSkin (Some "PNG:cached")
  /\ result r
     = match head (minecraft.mkSkin (Some "PNG:cached")) with
       | (_, Some _) => serverErrorPage emptyResponse
       | (out, None) => processedResponse env emptyResponse vars st out
       end.
Proof.
  cbv zeta.
  assert (Hd : disk (worldWith "notch" "PNG:cached")
                 !! skinPath (var (request "notch" "64") "username")
               = Some "PNG:cached") by (vm_compute; reflexivity).
  split; [repeat split; try reflexivity; exact Hd|].
  exact (handler_answers_from_cache (outside ["char"] [] readings) cacheOn
           head emptyResponse (request "notch" "64")
           (worldWith "notch" "PNG:cached") "PNG:cached" (Some "PNG:cached")
           eq_refl Hd eq_refl).
Defined.

Lemma indexPage_missing_witness :
  let r := indexPage plain emptyResponse freshWorld in
  (Clean plain "index.html" = "index.html"
   /\ disk freshWorld !! "www/index.html" = None)
  /\ result r = result (notFoundPage emptyResponse freshWorld)
  /\ status (result r) = Some 404
  /\ events r = [EvOpen "www/index.html"; EvOpen "static/404.html"].
Proof.
  cbv zeta.
  assert (Hm : disk freshWorld !! "www/index.html" = None)
    by (vm_compute; reflexivity).
  split; [split; [reflexivity | exact Hm]|].
  exact (indexPage_missing plain emptyResponse freshWorld eq_refl Hm).
Defined.

(** The not-found page comes from [static/], not from [www/]. *)
Example notFound_page_from_static :
  let st := siteWith "static/404.html" "<h1>gone</h1>" in
  let r := serveAssetPage plain emptyResponse "/assets/app.js" st in
  status (result r) = Some 404
  /\ body (result r) = "<h1>gone</h1>"
  /\ events r = [EvOpen "www/assets/app.js"; EvOpen "static/404.html"].
Proof. vm_compute. repeat split; reflexivity. Qed.

End MoreInstances.
